(** * The book store of vue-3-urql-example

    A shallow embedding of the GraphQL server under [graphql/]: the [Book]
    entity, the [Context] that owns the collection, the [App] entity with
    its two operations, and the [Query] and [Mutation] root resolvers,
    followed by the properties the specification states about them.

    The process holds one context object (server.ts, [const context = new
    ServerContext()]) that every request receives as [ctx].  Its [books]
    array is the only mutable object of the program, so the embedding
    threads the context through a state monad: reading [ctx.books] or
    [this.ctx.books] reads the state, [push] replaces it. *)

From Stdlib Require Import ZArith.
From stdpp Require Import functions base list strings gmap.

Local Open Scope string_scope.
Local Open Scope list_scope.

(** ** A state monad for the code that reads or mutates the context *)

Module State.
Section Monad.
Context {St : Type}.

Definition M (A : Type) : Type := St -> A * St.

Definition ret {A} (a : A) : M A := fun s => (a, s).

Definition bind {A B} (m : M A) (k : A -> M B) : M B :=
  fun s => let '(a, s') := m s in k a s'.

Definition gets {A} (f : St -> A) : M A := fun s => (f s, s).

Definition modify (f : St -> St) : M unit := fun s => (tt, f s).

Definition eval {A} (m : M A) (s : St) : A := fst (m s).

Definition exec {A} (m : M A) (s : St) : St := snd (m s).
End Monad.
Arguments M : clear implicits.
End State.

Notation "'let*' x ':=' c1 'in' c2" := (State.bind c1 (fun x => c2))
  (at level 10, x name, c1 at level 100, c2 at level 200, only parsing).

(** ** Promises

    [Mutation.addBook]'s resolver is an [async] function: its caller gets a
    promise, fulfilled with the value the body returns, rejected when the
    body throws. *)

Inductive Promise (A : Type) : Type :=
  | Fulfilled (value : A)
  | Rejected (reason : string).
Arguments Fulfilled {A} value.
Arguments Rejected {A} reason.

(** An [async] function whose body is [body] and contains no [await] and no
    [throw]: the body runs to its [return] and the promise is fulfilled. *)
Definition async {St A} (body : State.M St A) : State.M St (Promise A) :=
  let* value := body in State.ret (Fulfilled value).

(** ** Schema types, as nexus declares them *)

Inductive GqlType : Type :=
  | Named (name : string)
  | nonNull (ofType : GqlType)
  | list_ (ofType : GqlType).

(** A GraphQL type admits [null] unless it is wrapped in [nonNull]. *)
Definition nullable (t : GqlType) : bool :=
  match t with
  | nonNull _ => false
  | _ => true
  end.

Record FieldDef : Type := {
  field_name : string;
  field_type : GqlType;
  field_args : list (string * GqlType);
  field_description : option string
}.

(** ** Book.ts *)

(** [interface BookDetails { title: string; author: string; year: number }].
    The schema declares [year] an [Int]; the embedding takes every integer,
    which includes the years the transport would refuse. *)
Module BookDetails.
Record t : Type := mk {
  title : string;
  author : string;
  year : Z
}.

#[global] Instance eq_dec : EqDecision t.
Proof. solve_decision. Defined.
End BookDetails.

Module Book.
(** [class Book { constructor(private details: BookDetails) {} ... }] *)
Record t : Type := new {
  details : BookDetails.t
}.

#[global] Instance eq_dec : EqDecision t.
Proof. solve_decision. Defined.

(** [get title() { return this.details.title }] *)
Definition title (this : t) : string := BookDetails.title (details this).

(** [get author() { return this.details.author }] *)
Definition author (this : t) : string := BookDetails.author (details this).

(** [get year() { return this.details.year }] *)
Definition year (this : t) : Z := BookDetails.year (details this).

(** The three [@nxs.field] decorators. *)
Definition fields : list FieldDef :=
  [ {| field_name := "title"; field_type := nonNull (Named "String");
       field_args := []; field_description := None |};
    {| field_name := "author"; field_type := nonNull (Named "String");
       field_args := []; field_description := None |};
    {| field_name := "year"; field_type := nonNull (Named "Int");
       field_args := []; field_description := None |} ].
End Book.

Abbreviation BookDetails := BookDetails.t.
Abbreviation Book := Book.t.

(** ** Arrays *)

(** [Array.prototype.push] with one argument: the element becomes the new
    last one, every other element keeps its index. *)
Definition push {A} (array : list A) (element : A) : list A :=
  array ++ [element].

(** ** Context.ts and the shape of App.ts *)

(** [class App { constructor(private ctx: Context) {} ... }].  An [App] holds
    one field, the reference back to the context that built it, and that
    context is the state the monad threads: the object carries no data of
    its own. *)
Variant App : Type := new_App.

(** [abstract class Context { abstract books: Book[]; app = new App(this) }] *)
Module Context.
Record t : Type := mk {
  books : list Book;
  app : App
}.
End Context.

Abbreviation Context := Context.t.

(** The code that runs against the context. *)
Abbreviation M := (State.M Context).

(** ** App.ts *)

Module App.
(** [get books() { return this.ctx.books }] *)
Definition books (this : App) : M (list Book) :=
  State.gets Context.books.

(** [addBook (details: BookDetails) {
       const book = new Book(details)
       this.ctx.books.push(book)
       return book
     }] *)
Definition addBook (this : App) (details : BookDetails) : M Book :=
  let book := Book.new details in
  let* _ := State.modify (fun ctx =>
              {| Context.books := push (Context.books ctx) book;
                 Context.app := Context.app ctx |}) in
  State.ret book.

(** The decorator on [books]. *)
Definition fields : list FieldDef :=
  [ {| field_name := "books";
       field_type := nonNull (list_ (nonNull (Named "Book")));
       field_args := [];
       field_description := Some "All books in the system" |} ].
End App.

(** ** Query.ts *)

Module Query.
Section Resolvers.
(** The first parameter of both methods is [_: any] and is not read. *)
Context {any : Type}.

(** [app(_: any, ctx) { return ctx.app }] *)
Definition app (_ : any) : M App :=
  State.gets Context.app.

(** [books(_: any, ctx) { return ctx.app.books }] *)
Definition books (_ : any) : M (list Book) :=
  let* ctx_app := State.gets Context.app in
  App.books ctx_app.
End Resolvers.

Definition fields : list FieldDef :=
  [ {| field_name := "app"; field_type := nonNull (Named "App");
       field_args := []; field_description := None |};
    {| field_name := "books";
       field_type := nonNull (list_ (nonNull (Named "Book")));
       field_args := []; field_description := None |} ].
End Query.

(** ** Mutation.ts *)

Module Mutation.
(** [inputObjectType({ name: 'BookInput', definition (t) { ... } })] *)
Definition BookInput : list FieldDef :=
  [ {| field_name := "title"; field_type := nonNull (Named "String");
       field_args := []; field_description := None |};
    {| field_name := "author"; field_type := nonNull (Named "String");
       field_args := []; field_description := None |};
    {| field_name := "year"; field_type := nonNull (Named "Int");
       field_args := []; field_description := None |} ].

(** [t.field('addBook', { type: 'Book', description, args: { input } })]:
    the result type is the bare name, not wrapped in [nonNull]. *)
Definition addBook : FieldDef :=
  {| field_name := "addBook";
     field_type := Named "Book";
     field_args := [("input", nonNull (Named "BookInput"))];
     field_description := Some "Add a book" |}.

(** The resolver's [args]: one non-null [input] of the shape of
    [BookInput], which is the shape of [BookDetails]. *)
Record Args : Type := { input : BookDetails }.

(** [async resolve (root, args, ctx) { return ctx.app.addBook(args.input) }].
    The field's type is nullable, so the resolver's result type is
    [Book | null]: [None] is [null]. *)
Definition resolve {Root : Type} (root : Root) (args : Args)
  : M (Promise (option Book)) :=
  async (let* ctx_app := State.gets Context.app in
         let* book := App.addBook ctx_app (input args) in
         State.ret (Some book)).
End Mutation.

(** ** server.ts *)

Module ServerContext.
(** [class ServerContext extends Context {
       books = [new Book({ title: "My book", author: "Lachlan", year: 1990 })]
     }] and [new ServerContext()]. *)
Definition new : Context :=
  {| Context.books :=
       [ Book.new {| BookDetails.title := "My book";
                     BookDetails.author := "Lachlan";
                     BookDetails.year := 1990 |} ];
     Context.app := new_App |}.
End ServerContext.

(** [const context = new ServerContext()]: the state the server starts in. *)
Definition context : Context := ServerContext.new.

(** ** Sequences of operations

    The store has two operations, reached through [ctx.app].  A session is
    a sequence of them, run one after the other against the context. *)

Module Session.
Inductive Op : Type :=
  | list
  | add (details : BookDetails).

Inductive Reply : Type :=
  | listed (books : Datatypes.list Book)
  | added (book : Book).

(** One operation: [ctx.app.books] or [ctx.app.addBook(details)]. *)
Definition step (op : Op) : M Reply :=
  let* ctx_app := State.gets Context.app in
  match op with
  | list => let* books := App.books ctx_app in State.ret (listed books)
  | add details =>
      let* book := App.addBook ctx_app details in State.ret (added book)
  end.

Fixpoint run (ops : Datatypes.list Op) : M (Datatypes.list Reply) :=
  match ops with
  | [] => State.ret []
  | op :: ops' =>
      let* reply := step op in
      let* replies := run ops' in
      State.ret (reply :: replies)
  end.

(** The books a session constructs, in the order of its adds. *)
Fixpoint insertions (ops : Datatypes.list Op) : Datatypes.list Book :=
  match ops with
  | [] => []
  | list :: ops' => insertions ops'
  | add details :: ops' => Book.new details :: insertions ops'
  end.
End Session.

(** The collection is in insertion order: it is the books it started with,
    followed by the books added since, oldest first. *)
Definition insertion_order
    (initial : list Book) (history : list Session.Op) (ctx : Context) : Prop :=
  Context.books ctx = initial ++ Session.insertions history.

(** ** The store's contract, in the words of the specification

    Section 4.1: [list()] "returns the current collection"; [add(details)]
    "constructs a Book from the given fields, appends it to the end of the
    collection, returns the constructed Book".  The collection is a plain
    sequence of books. *)

Module Spec.
Definition Store : Type := Datatypes.list Book.

Definition list (store : Store) : Datatypes.list Book * Store :=
  (store, store).

Definition add (details : BookDetails) (store : Store) : Book * Store :=
  let book := Book.new details in (book, store ++ [book]).
End Spec.

(** Whether an operation of a session is an add. *)
Definition is_add (op : Session.Op) : bool :=
  match op with
  | Session.add _ => true
  | Session.list => false
  end.

(** ** schema.ts *)

Module Schema.
(** [Boolean(value)] for a value of type [string | undefined]: [undefined]
    and the empty string are false, every other string is true. *)
Definition Boolean (value : option string) : bool :=
  match value with
  | None => false
  | Some "" => false
  | Some _ => true
  end.

Record Outputs : Type := { typegen : string; schema : string }.

Record ContextType : Type := { module_ : string; export_ : string }.

Record Options : Type := {
  types : list string;
  shouldGenerateArtifacts : bool;
  shouldExitAfterGenerateArtifacts : bool;
  outputs : Outputs;
  contextType : ContextType
}.

Section MakeSchema.
(** Node's [path.join] and [__dirname], and [process.env], an object used
    as a map from variable names to strings. *)
Variable path_join : string -> string -> string.
Variable dirname : string.
Variable env : gmap string string.

(** The argument of [makeSchema] in [export const graphqlSchema =
    makeSchema({ ... })]. *)
Definition graphqlSchema : Options :=
  {| types := ["Book"; "Query"; "Mutation"];
     shouldGenerateArtifacts := true;
     shouldExitAfterGenerateArtifacts :=
       Boolean (env !! "GRAPHQL_CODEGEN");
     outputs :=
       {| typegen := path_join dirname "gen/nxs.gen.ts";
          schema := path_join dirname "schema.graphql" |};
     contextType :=
       {| module_ := path_join dirname "./Context.ts";
          export_ := "Context" |} |}.
End MakeSchema.
End Schema.

(** ** Objects by reference

    The definitions above follow the one context of the process.  In the
    code an App is an object that holds a reference to its context
    ([private ctx: Context]), a context holds its App in the field [app],
    and a resolver is handed a reference to a context as [ctx].  The
    definitions below embed the same methods over a heap of context
    objects, so that the object a method is called on, and the object a
    resolver returns, show in the result. *)

Module Heap.
(** A reference to a context object. *)
Abbreviation ContextRef := nat.

(** [class App { constructor(private ctx: Context) {} ... }] *)
Record App : Type := new_App { ctx : ContextRef }.

(** [abstract class Context { abstract books: Book[]; app = new App(this) }]:
    the two fields of a context object. *)
Module Context.
Record t : Type := mk {
  books : list Book;
  app : App
}.

(** What the constructor leaves at the reference [this] for a subclass
    that sets [books]: the field [app] is [new App(this)]. *)
Definition new (this : ContextRef) (books : list Book) : t :=
  {| books := books; app := new_App this |}.
End Context.

(** The heap: the object behind every reference. *)
Abbreviation t := (ContextRef -> Context.t).

(** The context behind [ctx] is as its constructor built it: its [app]
    is the App of that very context. *)
Definition constructed (heap : t) (ctx : ContextRef) : Prop :=
  Context.app (heap ctx) = new_App ctx.

Module App.
(** [get books() { return this.ctx.books }] *)
Definition books (this : App) : State.M t (list Book) :=
  State.gets (fun heap => Context.books (heap (ctx this))).

(** [addBook (details: BookDetails) {
       const book = new Book(details)
       this.ctx.books.push(book)
       return book
     }] *)
Definition addBook (this : App) (details : BookDetails)
  : State.M t Book :=
  let book := Book.new details in
  let* _ := State.modify (fun heap =>
              <[ctx this :=
                  {| Context.books :=
                       push (Context.books (heap (ctx this))) book;
                     Context.app := Context.app (heap (ctx this)) |}]>
                heap) in
  State.ret book.
End App.

Module Query.
Section Resolvers.
Context {any : Type}.

(** [app(_: any, ctx) { return ctx.app }] *)
Definition app (_ : any) (ctx : ContextRef) : State.M t App :=
  State.gets (fun heap => Context.app (heap ctx)).

(** [books(_: any, ctx) { return ctx.app.books }] *)
Definition books (_ : any) (ctx : ContextRef) : State.M t (list Book) :=
  let* ctx_app := State.gets (fun heap => Context.app (heap ctx)) in
  App.books ctx_app.
End Resolvers.
End Query.

Module Mutation.
(** [async resolve (root, args, ctx) { return ctx.app.addBook(args.input) }] *)
Definition resolve {Root : Type}
    (root : Root) (args : Mutation.Args) (ctx : ContextRef)
  : State.M t (Promise (option Book)) :=
  async (let* ctx_app := State.gets (fun heap => Context.app (heap ctx)) in
         let* book := App.addBook ctx_app (Mutation.input args) in
         State.ret (Some book)).
End Mutation.

Module ServerContext.
(** [class ServerContext extends Context { books = [new Book({ ... })] }] *)
Definition new (this : ContextRef) : Context.t :=
  Context.new this
    [ Book.new {| BookDetails.title := "My book";
                  BookDetails.author := "Lachlan";
                  BookDetails.year := 1990 |} ].
End ServerContext.

(** [const context = new ServerContext()]: the reference, and a heap that
    holds the new object behind it. *)
Definition context : ContextRef := 0%nat.

Definition initial : t :=
  <[context := ServerContext.new context]>
    (fun this => Context.new this []).
End Heap.

(** ** The documents of the views

    A view sends a document; the engine answers it field by field with the
    resolvers above, against the one context of the process. *)

Module GetBooks.
(** The shape of the answer: [{ app: { books: [...] } }], one entry per
    book, each entry what the selection under [books] picks from a book. *)
Record AppFields (F : Type) : Type := { books : list F }.
Arguments books {F} _.

Record GetBooksQuery (F : Type) : Type := { app : AppFields F }.
Arguments app {F} _.

(** [query GetBooks { app { books { ... } } }]: the [app] resolver of
    Query, the [books] getter of the App it returns, then the selection on
    every book of the array.  [selection] stands for a selection whose
    fields serialise whatever the book holds, as [{ title }], a String,
    does. *)
Definition execute {F : Type} (selection : Book -> F) : M (GetBooksQuery F) :=
  let* ctx_app := Query.app tt in
  let* books := App.books ctx_app in
  State.ret {| app := {| books := map selection books |} |}.

(** The selection [{ title }]. *)
Record TitleOnly : Type := { title : string }.

Definition select_title (book : Book) : TitleOnly :=
  {| title := Book.title book |}.
End GetBooks.

Module AddBook.
(** [$input: BookInput!] *)
Record Variables : Type := { input : BookDetails }.

(** The schema's [Int] (Mutation.ts, [t.nonNull.int('year')]) is a signed
    32-bit integer; a variable outside that range does not coerce. *)
Definition is_Int (n : Z) : bool :=
  ((-2147483648 <=? n) && (n <=? 2147483647))%Z.

Inductive GraphQLError : Type :=
  | variable_error (variable : string)
  | field_error (field : string) (reason : string).

(** [{ addBook: { title } | null }] *)
Record AddBookMutation : Type := { addBook : option GetBooks.TitleOnly }.

Record ExecutionResult : Type := {
  data : option AddBookMutation;
  errors : list GraphQLError
}.

(** [mutation AddBook($input: BookInput!) { addBook(input: $input) { title } }]:
    the variables are coerced, the resolver of Mutation is called with
    them and its promise awaited, and [title] is read from the book.  The
    field is nullable: [null], or a rejection, answer [addBook: null]. *)
Definition execute (variables : Variables) : M ExecutionResult :=
  if is_Int (BookDetails.year (input variables)) then
    let* promise :=
      Mutation.resolve tt {| Mutation.input := input variables |} in
    State.ret
      match promise with
      | Fulfilled (Some book) =>
          {| data := Some {| addBook := Some (GetBooks.select_title book) |};
             errors := [] |}
      | Fulfilled None =>
          {| data := Some {| addBook := None |}; errors := [] |}
      | Rejected reason =>
          {| data := Some {| addBook := None |};
             errors := [field_error "addBook" reason] |}
      end
  else
    State.ret {| data := None; errors := [variable_error "input"] |}.
End AddBook.

(** ** Query.vue *)

(** What a template renders. *)
#[warnings="-register-all"]
Inductive VNode : Type :=
  | text (content : string)
  | element (tag : string) (children : list VNode)
  | comment (content : string).

(** [node.textContent]: the text of the node and of its descendants, in
    document order; comments have none. *)
Fixpoint textContent (node : VNode) : string :=
  match node with
  | text content => content
  | element _ children =>
      fold_right (fun child rest => textContent child +:+ rest) "" children
  | comment _ => ""
  end.

(** The elements of a given tag in the tree under [node], [node] included,
    in document order. *)
Fixpoint elementsByTag (tag : string) (node : VNode) : list VNode :=
  match node with
  | element tag' children =>
      (if String.eqb tag' tag then [node] else []) ++
      flat_map (elementsByTag tag) children
  | _ => []
  end.

Module QueryVue.
Section Template.
(** urql's error type and Vue's [toDisplayString] on it; [F] is what the
    document selects from a book and [Book_vue] what the [Book] component
    renders for its [book] prop. *)
Context {CombinedError F : Type}.
Variable toDisplayString : CombinedError -> string.
Variable Book_vue : F -> VNode.

(** What [setup] returns: the three refs of [useQuery]. *)
Record Refs : Type := {
  fetching : bool;
  data : option (GetBooks.GetBooksQuery F);
  error : option CombinedError
}.

(** The template:
    [<div v-if="fetching">
       Loading...
     </div>
     <div v-else-if="error">
       Oh no... {{ error }}
     </div>
     <div v-else>
       <ul v-if="data">
         <Book v-for="book of data.app.books" :book="book" />
       </ul>
     </div>]
    Vue condenses the white space of a template: a run of it inside a
    text is one space, and white space alone at the start or the end of
    an element, or between two elements on separate lines, is dropped. *)
Definition render (refs : Refs) : VNode :=
  if fetching refs then
    element "div" [text " Loading... "]
  else
    match error refs with
    | Some e => element "div" [text (" Oh no... " +:+ toDisplayString e)]
    | None =>
        element "div"
          [ match data refs with
            | Some d =>
                element "ul"
                  (map Book_vue (GetBooks.books (GetBooks.app d)))
            | None => comment "v-if"
            end ]
    end.
End Template.

(** The version of the view that lists titles: it selects [{ title }] and
    draws [<li v-for="book of data.app.books">{{ book.title }}</li>]. *)
Definition li (book : GetBooks.TitleOnly) : VNode :=
  element "li" [text (GetBooks.title book)].

Definition render_titles {CombinedError : Type}
    (toDisplayString : CombinedError -> string)
    (refs : @Refs CombinedError GetBooks.TitleOnly) : VNode :=
  if fetching refs then
    element "div" [text " Loading... "]
  else
    match error refs with
    | Some e => element "div" [text (" Oh no... " +:+ toDisplayString e)]
    | None =>
        element "div"
          [ match data refs with
            | Some d =>
                element "ul" (map li (GetBooks.books (GetBooks.app d)))
            | None => comment "v-if"
            end ]
    end.
End QueryVue.

(** ** Mutation.vue *)

Module MutationVue.
(** The three refs of [setup]: [ref('')], [ref('')] and
    [ref<number | null>(null)]. *)
Record Refs : Type := {
  title : string;
  author : string;
  year : option Z
}.

Definition setup : Refs := {| title := ""; author := ""; year := None |}.

(** [value || fallback] for a [number | null]: [null] and [0] are falsy. *)
Definition or_else (value : option Z) (fallback : Z) : Z :=
  match value with
  | None => fallback
  | Some 0%Z => fallback
  | Some n => n
  end.

(** The variables that [add] passes to [executeMutation]. *)
Definition variables (refs : Refs) : AddBook.Variables :=
  {| AddBook.input :=
       {| BookDetails.title := title refs;
          BookDetails.author := author refs;
          BookDetails.year := or_else (year refs) 1990 |} |}.

Section Add.
(** urql's [executeMutation]: it acts on the world outside the component
    and returns a promise. *)
Context {World Result : Type}.
Variable executeMutation :
  AddBook.Variables -> State.M World (Promise Result).

(** [add: async () => {
       await addBook.executeMutation({ input: { ... } })
       title.value = ''
       author.value = ''
       year.value = null
     }]
    The refs are read when [executeMutation] is called.  When its promise
    is fulfilled the three refs are written and the promise of [add] is
    fulfilled; when it is rejected the [await] throws, the refs are left
    as they are and the promise of [add] is rejected.  [add] here is one
    such run, start to end. *)
Definition add : State.M (Refs * World) (Promise unit) :=
  fun '(refs, world) =>
    let '(outcome, world') := executeMutation (variables refs) world in
    match outcome with
    | Fulfilled _ =>
        let refs1 :=
          {| title := ""; author := author refs; year := year refs |} in
        let refs2 :=
          {| title := title refs1; author := ""; year := year refs1 |} in
        let refs3 :=
          {| title := title refs2; author := author refs2; year := None |} in
        (Fulfilled tt, (refs3, world'))
    | Rejected reason => (Rejected reason, (refs, world'))
    end.
End Add.
End MutationVue.

(** ** The page against the server

    What the two views send reaches the resolvers through the handler of
    server.ts, [graphqlHTTP(() => ({ schema, graphiql: true, context }))],
    which hands every request the same [context]. *)

Module Server.
Inductive Request : Type :=
  | GetBooks
  | AddBook (variables : AddBook.Variables).

Inductive Response : Type :=
  | GetBooksResult (data : GetBooks.GetBooksQuery GetBooks.TitleOnly)
  | AddBookResult (result : AddBook.ExecutionResult).

Definition handle (request : Request) : M Response :=
  match request with
  | GetBooks =>
      let* data := GetBooks.execute GetBooks.select_title in
      State.ret (GetBooksResult data)
  | AddBook variables =>
      let* result := AddBook.execute variables in
      State.ret (AddBookResult result)
  end.

Fixpoint serve (requests : list Request) : M (list Response) :=
  match requests with
  | [] => State.ret []
  | request :: requests' =>
      let* response := handle request in
      let* responses := serve requests' in
      State.ret (response :: responses)
  end.

(** The books the requests put in the store, in order: one for every
    AddBook whose variables coerce. *)
Fixpoint stored (requests : list Request) : list Book :=
  match requests with
  | [] => []
  | GetBooks :: requests' => stored requests'
  | AddBook variables :: requests' =>
      if AddBook.is_Int (BookDetails.year (AddBook.input variables))
      then Book.new (AddBook.input variables) :: stored requests'
      else stored requests'
  end.
End Server.

Module Page.
(** urql's [executeMutation] for the AddBook document, sent to the server
    above: its promise is fulfilled with the server's answer, errors
    included. *)
Definition executeMutation (variables : AddBook.Variables)
  : M (Promise AddBook.ExecutionResult) :=
  async (AddBook.execute variables).
End Page.

(** The context behind a reference, as the definitions that follow one
    context see it. *)
Definition view (heap : Heap.t) (ctx : Heap.ContextRef) : Context :=
  {| Context.books := Heap.Context.books (heap ctx);
     Context.app := new_App |}.

(** * Properties *)

(** ** How the operations run *)

Section Runs.
Variable ctx : Context.

Lemma App_books_run (this : App) :
  App.books this ctx = (Context.books ctx, ctx).
Proof. reflexivity. Qed.

Lemma App_addBook_run (this : App) (details : BookDetails) :
  App.addBook this details ctx =
    (Book.new details,
     {| Context.books := Context.books ctx ++ [Book.new details];
        Context.app := Context.app ctx |}).
Proof. reflexivity. Qed.

Lemma step_list_run :
  Session.step Session.list ctx = (Session.listed (Context.books ctx), ctx).
Proof. reflexivity. Qed.

Lemma step_add_run (details : BookDetails) :
  Session.step (Session.add details) ctx =
    (Session.added (Book.new details),
     State.exec (App.addBook (Context.app ctx) details) ctx).
Proof. reflexivity. Qed.
End Runs.

Lemma run_cons (op : Session.Op) (ops : list Session.Op) (ctx : Context) :
  State.exec (Session.run (op :: ops)) ctx =
    State.exec (Session.run ops) (State.exec (Session.step op) ctx).
Proof.
  unfold State.exec. simpl. unfold State.bind at 1.
  destruct (Session.step op ctx) as [reply ctx1]. unfold State.bind.
  simpl. destruct (Session.run ops ctx1) as [replies ctx2]. reflexivity.
Qed.

Lemma step_books (op : Session.Op) (ctx : Context) :
  Context.books (State.exec (Session.step op) ctx) =
    Context.books ctx ++ Session.insertions [op].
Proof.
  unfold State.exec. destruct op as [|details].
  - rewrite step_list_run. simpl. symmetry. apply app_nil_r.
  - rewrite step_add_run. reflexivity.
Qed.

Lemma insertions_app (ops1 ops2 : list Session.Op) :
  Session.insertions (ops1 ++ ops2) =
    Session.insertions ops1 ++ Session.insertions ops2.
Proof.
  induction ops1 as [|[|details] ops1 IH]; simpl.
  - reflexivity.
  - exact IH.
  - now rewrite IH.
Qed.

Lemma insertions_adds (ds : list BookDetails) :
  Session.insertions (map Session.add ds) = map Book.new ds.
Proof. induction ds as [|d ds IH]; simpl; congruence. Qed.

(** After any session the collection is what it was, followed by the books
    the session's adds constructed, in the order of the adds. *)
Lemma run_books (ops : list Session.Op) :
  forall ctx : Context,
    Context.books (State.exec (Session.run ops) ctx) =
      Context.books ctx ++ Session.insertions ops.
Proof.
  induction ops as [|op ops IH]; intros ctx.
  - simpl. symmetry. apply app_nil_r.
  - rewrite run_cons, IH, step_books.
    rewrite <- app_assoc.
    change (op :: ops) with ([op] ++ ops).
    now rewrite insertions_app.
Qed.

Lemma run_app_field (ops : list Session.Op) :
  forall ctx : Context,
    Context.app (State.exec (Session.run ops) ctx) = Context.app ctx.
Proof.
  induction ops as [|op ops IH]; intros ctx; [reflexivity|].
  rewrite run_cons, IH. now destruct op.
Qed.

(** ** The add operation *)

(** C1: for every context and every details record, [App.addBook] builds a
    Book whose title, author and year are the given ones, makes it the new
    last element of the collection, and returns that very Book; a list after
    the add therefore ends with a book carrying exactly the given fields. *)
Theorem addBook_appends_and_returns_the_book
    (this : App) (details : BookDetails) (ctx : Context) :
  let book := State.eval (App.addBook this details) ctx in
  let ctx' := State.exec (App.addBook this details) ctx in
  let listed := State.eval (App.books this) ctx' in
  book = Book.new details /\
  Book.title book = BookDetails.title details /\
  Book.author book = BookDetails.author details /\
  Book.year book = BookDetails.year details /\
  Context.books ctx' = Context.books ctx ++ [book] /\
  last listed = Some book /\
  length listed = S (length (Context.books ctx)).
Proof.
  cbv zeta. unfold State.eval, State.exec.
  rewrite App_addBook_run, App_books_run. simpl.
  repeat split.
  - apply last_snoc.
  - rewrite length_app. simpl. lia.
Qed.

(** ** Order *)

Lemma run_adds_replies (ds : list BookDetails) :
  forall ctx : Context,
    State.eval (Session.run (map Session.add ds)) ctx =
      map (fun details => Session.added (Book.new details)) ds.
Proof.
  unfold State.eval.
  induction ds as [|d ds IH]; intros ctx; [reflexivity|].
  simpl. unfold State.bind at 1. rewrite step_add_run.
  unfold State.bind at 1.
  specialize (IH (State.exec (App.addBook (Context.app ctx) d) ctx)).
  destruct (Session.run (map Session.add ds) _) as [replies ctx2].
  simpl in *. now subst replies.
Qed.

(** C2: from any starting context, after the adds of [ds] performed in
    order, list returns the books already present followed by the added
    books in the order they were added, and each add replied with its own
    book; and both operations preserve the insertion-order invariant,
    whatever came before. *)
Theorem adds_are_listed_in_insertion_order
    (ctx : Context) (ds : list BookDetails) :
  let session := map Session.add ds in
  let ctx' := State.exec (Session.run session) ctx in
  let listed := State.eval (App.books (Context.app ctx')) ctx' in
  listed = Context.books ctx ++ map Book.new ds /\
  map Book.details (drop (length (Context.books ctx)) listed) = ds /\
  State.eval (Session.run session) ctx =
    map (fun details => Session.added (Book.new details)) ds /\
  (forall initial history op,
      insertion_order initial history ctx ->
      insertion_order initial (history ++ [op])
        (State.exec (Session.step op) ctx)).
Proof.
  cbv zeta.
  assert (Hlisted :
    State.eval
      (App.books
         (Context.app (State.exec (Session.run (map Session.add ds)) ctx)))
      (State.exec (Session.run (map Session.add ds)) ctx) =
    Context.books ctx ++ map Book.new ds).
  { unfold State.eval at 1. rewrite App_books_run. simpl.
    now rewrite run_books, insertions_adds. }
  split; [exact Hlisted|]. split; [|split].
  - rewrite Hlisted, drop_app_length.
    rewrite map_map. simpl. apply map_id.
  - apply run_adds_replies.
  - unfold insertion_order. intros initial history op Hinv.
    rewrite step_books, Hinv, insertions_app. now rewrite app_assoc.
Qed.

(** The invariant at work on the server's own context, one add after start. *)
Lemma adds_are_listed_in_insertion_order_witness :
  insertion_order (Context.books context)
    [Session.add (BookDetails.mk "New title" "Lachlan" 1990)]
    (State.exec
       (Session.step (Session.add (BookDetails.mk "New title" "Lachlan" 1990)))
       context).
Proof.
  apply (proj2 (proj2 (proj2
           (adds_are_listed_in_insertion_order context [])))
           (Context.books context) []).
  unfold insertion_order. simpl. reflexivity.
Defined.

(** ** The list operation *)

(** C3: [App.books] and [Query.books] return the context's current [books]
    sequence itself: every stored book at its stored index, nothing left
    out, nothing added, and the context is not touched. *)
Theorem books_returns_the_whole_collection
    (any : Type) (arg : any) (this : App) (ctx : Context) :
  App.books this ctx = (Context.books ctx, ctx) /\
  Query.books arg ctx = (Context.books ctx, ctx) /\
  length (State.eval (App.books this) ctx) = length (Context.books ctx) /\
  (forall i : nat,
      State.eval (App.books this) ctx !! i = Context.books ctx !! i) /\
  (forall i : nat,
      State.eval (Query.books arg) ctx !! i = Context.books ctx !! i).
Proof. repeat split. Qed.

(** C4: two lists in a row return equal sequences, by either read path,
    and a list leaves the context as it found it. *)
Theorem books_is_idempotent
    (any : Type) (arg : any) (this : App) (ctx : Context) :
  let '(first, ctx1) := App.books this ctx in
  let '(second, ctx2) := App.books this ctx1 in
  let '(third, ctx3) := Query.books arg ctx2 in
  let '(fourth, ctx4) := Query.books arg ctx3 in
  first = second /\ second = third /\ third = fourth /\
  ctx1 = ctx /\ ctx2 = ctx /\ ctx3 = ctx /\ ctx4 = ctx /\
  State.exec (Session.step Session.list) ctx = ctx /\
  State.exec (Session.run [Session.list; Session.list]) ctx = ctx.
Proof.
  rewrite App_books_run, App_books_run.
  change (Query.books arg ctx) with (Context.books ctx, ctx).
  repeat split.
Qed.

(** ** Books stay *)

(** C5: a book found at index [i] of the collection is found there, the
    same book with the same title, author and year, after any sequence of
    lists and adds; the collection before is a prefix of the collection
    after, and an add touches no element that was already there. *)
Theorem books_are_never_changed_or_removed
    (ctx : Context) (i : nat) (book : Book) (ops : list Session.Op)
    (Hbook : Context.books ctx !! i = Some book) :
  let ctx' := State.exec (Session.run ops) ctx in
  Context.books ctx' !! i = Some book /\
  (exists book',
      State.eval (App.books (Context.app ctx')) ctx' !! i = Some book' /\
      Book.title book' = Book.title book /\
      Book.author book' = Book.author book /\
      Book.year book' = Book.year book) /\
  Context.books ctx `prefix_of` Context.books ctx' /\
  (forall (this : App) (details : BookDetails),
      take (length (Context.books ctx))
        (Context.books (State.exec (App.addBook this details) ctx)) =
      Context.books ctx).
Proof.
  cbv zeta.
  assert (Hkept :
    Context.books (State.exec (Session.run ops) ctx) !! i = Some book).
  { rewrite run_books. now apply lookup_app_l_Some. }
  split; [exact Hkept|]. split; [|split].
  - exists book. unfold State.eval. rewrite App_books_run. simpl. auto.
  - exists (Session.insertions ops). apply run_books.
  - intros this details. unfold State.exec. rewrite App_addBook_run.
    simpl. apply take_app_length.
Qed.

(** The seeded book survives a session of a list, an add and a list. *)
Lemma books_are_never_changed_or_removed_witness :
  Context.books
    (State.exec
       (Session.run
          [Session.list;
           Session.add (BookDetails.mk "New title" "Lachlan" 1990);
           Session.list])
       context) !! 0%nat =
  Some (Book.new (BookDetails.mk "My book" "Lachlan" 1990)).
Proof.
  apply (books_are_never_changed_or_removed context 0
           (Book.new (BookDetails.mk "My book" "Lachlan" 1990))).
  reflexivity.
Defined.

(** ** The entry points *)

Lemma Mutation_resolve_run
    {Root : Type} (root : Root) (args : Mutation.Args) (ctx : Context) :
  Mutation.resolve root args ctx =
    (Fulfilled (Some (Book.new (Mutation.input args))),
     {| Context.books :=
          Context.books ctx ++ [Book.new (Mutation.input args)];
        Context.app := Context.app ctx |}).
Proof. reflexivity. Qed.

Lemma Query_books_run {any : Type} (arg : any) (ctx : Context) :
  Query.books arg ctx = (Context.books ctx, ctx).
Proof. reflexivity. Qed.

(** C6: neither operation has a failure path.  For every context and every
    details record a list returns the collection and an add returns a book
    and a context one book longer, the book carrying the details as given:
    nothing is validated (empty strings and any integer year are stored as
    they come), nothing is rejected as a duplicate (the same details added
    twice make two entries), and the mutation's promise is fulfilled. *)
Theorem operations_never_fail
    (Root : Type) (root : Root) (this : App)
    (details : BookDetails) (ctx : Context) :
  (exists books, App.books this ctx = (books, ctx)) /\
  (exists book ctx',
      App.addBook this details ctx = (book, ctx') /\
      Book.details book = details /\
      length (Context.books ctx') = S (length (Context.books ctx))) /\
  (exists book ctx',
      Mutation.resolve root {| Mutation.input := details |} ctx =
        (Fulfilled (Some book), ctx') /\
      Book.details book = details) /\
  Context.books
    (State.exec (Session.run [Session.add details; Session.add details]) ctx)
    = Context.books ctx ++ [Book.new details; Book.new details] /\
  (forall year : Z,
      last (Context.books
              (State.exec (App.addBook this (BookDetails.mk "" "" year)) ctx))
      = Some (Book.new (BookDetails.mk "" "" year))).
Proof.
  split; [|split; [|split; [|split]]].
  - eexists. apply App_books_run.
  - do 2 eexists. split; [apply App_addBook_run|]. split; [reflexivity|].
    simpl. rewrite length_app. simpl. lia.
  - do 2 eexists. split; [apply Mutation_resolve_run|]. reflexivity.
  - apply run_books.
  - intros year. unfold State.exec. rewrite App_addBook_run. simpl.
    apply last_snoc.
Qed.

(** ** The entry points, by reference *)

Lemma Heap_App_books_run (this : Heap.App) (heap : Heap.t) :
  Heap.App.books this heap =
    (Heap.Context.books (heap (Heap.ctx this)), heap).
Proof. reflexivity. Qed.

Lemma Heap_App_addBook_run
    (this : Heap.App) (details : BookDetails) (heap : Heap.t) :
  Heap.App.addBook this details heap =
    (Book.new details,
     <[Heap.ctx this :=
         {| Heap.Context.books :=
              Heap.Context.books (heap (Heap.ctx this)) ++ [Book.new details];
            Heap.Context.app := Heap.Context.app (heap (Heap.ctx this)) |}]>
       heap).
Proof. reflexivity. Qed.

Lemma Heap_Mutation_resolve_run
    {Root : Type} (root : Root) (args : Mutation.Args)
    (ctx : Heap.ContextRef) (heap : Heap.t) :
  Heap.Mutation.resolve root args ctx heap =
    (Fulfilled
       (Some (State.eval
                (Heap.App.addBook (Heap.Context.app (heap ctx))
                   (Mutation.input args)) heap)),
     State.exec
       (Heap.App.addBook (Heap.Context.app (heap ctx)) (Mutation.input args))
       heap).
Proof. reflexivity. Qed.

(** An add leaves every context as its constructor built it. *)
Lemma addBook_keeps_constructed
    (this : Heap.App) (details : BookDetails)
    (heap : Heap.t) (ctx : Heap.ContextRef) :
  Heap.constructed heap ctx ->
  Heap.constructed (State.exec (Heap.App.addBook this details) heap) ctx.
Proof.
  unfold Heap.constructed, State.exec. rewrite Heap_App_addBook_run.
  cbn [snd]. intros Hctx.
  destruct (decide (Heap.ctx this = ctx)) as [<-|Hne].
  - now rewrite fn_lookup_insert.
  - now rewrite fn_lookup_insert_ne.
Qed.

Lemma resolve_keeps_constructed
    {Root : Type} (root : Root) (args : Mutation.Args)
    (ctx other : Heap.ContextRef) (heap : Heap.t) :
  Heap.constructed heap other ->
  Heap.constructed
    (State.exec (Heap.Mutation.resolve root args ctx) heap) other.
Proof.
  unfold State.exec at 1. rewrite Heap_Mutation_resolve_run. cbn [snd].
  apply addBook_keeps_constructed.
Qed.

(** The server's heap holds every context as its constructor built it. *)
Lemma initial_constructed (ctx : Heap.ContextRef) :
  Heap.constructed Heap.initial ctx.
Proof.
  unfold Heap.constructed, Heap.initial.
  destruct (decide (Heap.context = ctx)) as [<-|Hne].
  - now rewrite fn_lookup_insert.
  - now rewrite fn_lookup_insert_ne.
Qed.

(** The definitions that follow one context are these, seen from a
    context as its constructor built it. *)
Lemma view_addBook
    (details : BookDetails) (heap : Heap.t) (ctx : Heap.ContextRef) :
  Heap.constructed heap ctx ->
  view
    (State.exec
       (Heap.App.addBook (Heap.Context.app (heap ctx)) details) heap) ctx =
  State.exec (App.addBook new_App details) (view heap ctx) /\
  State.eval (Heap.App.books (Heap.Context.app (heap ctx))) heap =
  State.eval (App.books new_App) (view heap ctx).
Proof.
  unfold Heap.constructed, State.exec, State.eval. intros Hctx.
  rewrite Heap_App_addBook_run, Heap_App_books_run, Hctx.
  cbn [snd fst Heap.ctx]. unfold view. now rewrite fn_lookup_insert.
Qed.

(** C7: the Mutation resolver returns, in a fulfilled promise, the book
    that [addBook] of [ctx.app], the App held by the context, returns for
    [args.input] as it came, and changes the heap as that one call does:
    the store of that App gets the new book last, which is the store's
    [add] of the specification, and no other context and no [app] field
    changes.  The [app] resolver returns the App the context holds and the
    [books] resolver the store of that App, the store's [list]; neither
    changes the heap.  On a context as its constructor built it, that App
    is the context's own and that store the context's own [books]. *)
Theorem resolvers_only_forward
    (any Root : Type) (arg : any) (root : Root)
    (args : Mutation.Args) (ctx : Heap.ContextRef) (heap : Heap.t) :
  let ctx_app := Heap.Context.app (heap ctx) in
  let add := Heap.App.addBook ctx_app (Mutation.input args) in
  let store := Heap.Context.books (heap (Heap.ctx ctx_app)) in
  let heap' := State.exec (Heap.Mutation.resolve root args ctx) heap in
  Heap.Mutation.resolve root args ctx heap =
    (Fulfilled (Some (State.eval add heap)), State.exec add heap) /\
  Book.details (State.eval add heap) = Mutation.input args /\
  State.eval (Heap.Mutation.resolve root args ctx) heap =
    Fulfilled (Some (fst (Spec.add (Mutation.input args) store))) /\
  Heap.Context.books (heap' (Heap.ctx ctx_app)) =
    snd (Spec.add (Mutation.input args) store) /\
  (forall other : Heap.ContextRef,
      other <> Heap.ctx ctx_app ->
      Heap.Context.books (heap' other) = Heap.Context.books (heap other)) /\
  (forall other : Heap.ContextRef,
      Heap.Context.app (heap' other) = Heap.Context.app (heap other)) /\
  Heap.Query.app arg ctx heap = (ctx_app, heap) /\
  Heap.Query.books arg ctx heap = (fst (Spec.list store), heap) /\
  (Heap.constructed heap ctx ->
     ctx_app = Heap.new_App ctx /\
     store = Heap.Context.books (heap ctx)).
Proof.
  cbv zeta. unfold State.eval, State.exec.
  rewrite !Heap_Mutation_resolve_run.
  unfold State.eval, State.exec. rewrite !Heap_App_addBook_run.
  cbn [fst snd]. unfold Spec.add, Spec.list. cbn [fst snd].
  split; [reflexivity|]. split; [reflexivity|]. split; [reflexivity|].
  split; [now rewrite fn_lookup_insert|].
  split; [intros other Hother; now rewrite fn_lookup_insert_ne|].
  split.
  { intros other.
    destruct (decide (Heap.ctx (Heap.Context.app (heap ctx)) = other))
      as [<-|Hne].
    - now rewrite fn_lookup_insert.
    - now rewrite fn_lookup_insert_ne. }
  split; [reflexivity|]. split; [reflexivity|].
  unfold Heap.constructed. intros ->. split; reflexivity.
Qed.

(** On the server's heap the App of the context is the context's own. *)
Lemma resolvers_only_forward_witness :
  Heap.Context.app (Heap.initial Heap.context) =
    Heap.new_App Heap.context /\
  Heap.Context.books
    (Heap.initial
       (Heap.ctx (Heap.Context.app (Heap.initial Heap.context)))) =
    Heap.Context.books (Heap.initial Heap.context).
Proof.
  apply (proj2 (proj2 (proj2 (proj2 (proj2 (proj2 (proj2 (proj2
           (resolvers_only_forward unit unit tt tt
              {| Mutation.input :=
                   BookDetails.mk "New title" "Lachlan" 1990 |}
              Heap.context Heap.initial))))))))).
  reflexivity.
Defined.

(** C9: the two read paths agree.  The top-level [books] resolver and the
    [books] getter called on the App that the [app] resolver returns give
    the same sequence, the store of the App the context holds; on a
    context as its constructor built it, that is the context's own
    [books]. *)
Theorem read_paths_agree
    (any1 any2 : Type) (arg1 : any1) (arg2 : any2)
    (ctx : Heap.ContextRef) (heap : Heap.t) :
  let top := State.eval (Heap.Query.books arg1 ctx) heap in
  let '(ctx_app, heap1) := Heap.Query.app arg2 ctx heap in
  let nested := State.eval (Heap.App.books ctx_app) heap1 in
  top = nested /\
  top = Heap.Context.books (heap (Heap.ctx (Heap.Context.app (heap ctx)))) /\
  (Heap.constructed heap ctx ->
     top = Heap.Context.books (heap ctx) /\
     nested = Heap.Context.books (heap ctx)).
Proof.
  cbv zeta.
  destruct (Heap.Query.app arg2 ctx heap) as [ctx_app heap1] eqn:Happ.
  injection Happ as <- <-.
  unfold State.eval. rewrite Heap_App_books_run. cbn [fst].
  split; [reflexivity|]. split; [reflexivity|].
  unfold Heap.constructed. intros Hctx.
  change (Heap.Query.books arg1 ctx heap)
    with (Heap.App.books (Heap.Context.app (heap ctx)) heap).
  rewrite Heap_App_books_run, Hctx. split; reflexivity.
Qed.

(** On the server's heap both paths list the seeded book. *)
Lemma read_paths_agree_witness :
  State.eval (Heap.Query.books tt Heap.context) Heap.initial =
    Heap.Context.books (Heap.initial Heap.context) /\
  State.eval
    (Heap.App.books (State.eval (Heap.Query.app tt Heap.context) Heap.initial))
    Heap.initial =
    Heap.Context.books (Heap.initial Heap.context).
Proof.
  apply (proj2 (proj2
           (read_paths_agree unit unit tt tt Heap.context Heap.initial))).
  reflexivity.
Defined.

(** C10: the [addBook] field is declared nullable, yet for every context
    and every input its resolver's promise is fulfilled with a book: never
    with [null], never rejected. *)
Theorem addBook_resolver_always_yields_a_book
    (Root : Type) (root : Root) (args : Mutation.Args) (ctx : Context) :
  nullable (field_type Mutation.addBook) = true /\
  (exists book : Book,
      State.eval (Mutation.resolve root args) ctx = Fulfilled (Some book) /\
      last (Context.books (State.exec (Mutation.resolve root args) ctx)) =
        Some book) /\
  State.eval (Mutation.resolve root args) ctx <> Fulfilled None /\
  (forall reason : string,
      State.eval (Mutation.resolve root args) ctx <> Rejected reason).
Proof.
  unfold State.eval, State.exec. rewrite Mutation_resolve_run. simpl.
  split; [reflexivity|]. split.
  - eexists. split; [reflexivity|]. apply last_snoc.
  - split; [|intros reason]; discriminate.
Qed.

(** ** The server's scenario *)

(** C8: the server starts with the one seeded book, and a list returns
    exactly that entry; after the add of ["New title", "Lachlan", 1990]
    a list returns exactly two entries, the second with the fields of the
    input. *)
Theorem server_starts_seeded_and_add_makes_two :
  let seed := Book.new (BookDetails.mk "My book" "Lachlan" 1990) in
  let input := BookDetails.mk "New title" "Lachlan" 1990 in
  let ctx' :=
    State.exec (Mutation.resolve tt {| Mutation.input := input |}) context in
  Context.books context = [seed] /\
  State.eval (Query.books tt) context = [seed] /\
  State.eval (App.books (State.eval (Query.app tt) context)) context = [seed] /\
  State.eval (Query.books tt) ctx' = [seed; Book.new input] /\
  length (State.eval (Query.books tt) ctx') = 2%nat /\
  (exists second : Book,
      State.eval (Query.books tt) ctx' !! 1%nat = Some second /\
      Book.title second = "New title" /\
      Book.author second = "Lachlan" /\
      Book.year second = 1990%Z).
Proof.
  cbv zeta. repeat split.
  eexists. split; [vm_compute; reflexivity|]. repeat split.
Qed.

(** * Further properties of the store *)

Lemma run_app (ops1 ops2 : list Session.Op) :
  forall ctx : Context,
    Session.run (ops1 ++ ops2) ctx =
      (State.eval (Session.run ops1) ctx ++
         State.eval (Session.run ops2) (State.exec (Session.run ops1) ctx),
       State.exec (Session.run ops2) (State.exec (Session.run ops1) ctx)).
Proof.
  unfold State.eval, State.exec.
  induction ops1 as [|op ops1 IH]; intros ctx; simpl.
  - now destruct (Session.run ops2 ctx).
  - unfold State.bind at 1 3 5 7.
    destruct (Session.step op ctx) as [reply ctx1].
    unfold State.bind. rewrite IH.
    destruct (Session.run ops1 ctx1) as [replies1 ctx2]. simpl.
    now destruct (Session.run ops2 ctx2).
Qed.

Lemma insertions_length (ops : list Session.Op) :
  length (Session.insertions ops) = length (List.filter is_add ops).
Proof.
  induction ops as [|[|details] ops IH]; simpl; congruence.
Qed.

Lemma run_replies_length (ops : list Session.Op) :
  forall ctx : Context, length (State.eval (Session.run ops) ctx) = length ops.
Proof.
  unfold State.eval.
  induction ops as [|op ops IH]; intros ctx; [reflexivity|].
  simpl. unfold State.bind at 1.
  destruct (Session.step op ctx) as [reply ctx1]. unfold State.bind.
  specialize (IH ctx1). destruct (Session.run ops ctx1). simpl in *. lia.
Qed.

Lemma elem_of_insertions (book : Book) (ops : list Session.Op) :
  book ∈ Session.insertions ops <->
  exists details, Session.add details ∈ ops /\ book = Book.new details.
Proof.
  induction ops as [|[|details] ops IH]; simpl.
  - split; [intros H; inversion H|intros (d & H & _); inversion H].
  - rewrite IH. split; intros (d & Hd & ->); exists d; split; auto.
    + apply elem_of_cons. now right.
    + apply elem_of_cons in Hd as [Hd|Hd]; [discriminate|exact Hd].
  - rewrite elem_of_cons, IH. split.
    + intros [->|(d & Hd & ->)].
      * exists details. split; [apply elem_of_cons; now left|reflexivity].
      * exists d. split; [apply elem_of_cons; now right|reflexivity].
    + intros (d & Hd & ->). apply elem_of_cons in Hd as [Hd|Hd].
      * left. congruence.
      * right. eauto.
Qed.

(** X1: a session changes the length of the collection by the number of
    its adds, whatever the lists in between, and replies once to every
    operation. *)
Theorem session_grows_by_its_adds (ops : list Session.Op) (ctx : Context) :
  length (Context.books (State.exec (Session.run ops) ctx)) =
    (length (Context.books ctx) + length (List.filter is_add ops))%nat /\
  length (State.eval (Session.run ops) ctx) = length ops.
Proof.
  split.
  - rewrite run_books, length_app. f_equal. apply insertions_length.
  - apply run_replies_length.
Qed.

(** X2: after a session the collection holds the books it held before and
    the books built from the details of the session's adds, and no other
    book. *)
Theorem session_holds_old_and_added_books_only
    (ops : list Session.Op) (ctx : Context) (book : Book) :
  book ∈ Context.books (State.exec (Session.run ops) ctx) <->
  book ∈ Context.books ctx \/
  exists details, Session.add details ∈ ops /\ book = Book.new details.
Proof.
  rewrite run_books, elem_of_app. now rewrite elem_of_insertions.
Qed.

(** X3: the order of two adds shows: adding [d1] then [d2] and adding [d2]
    then [d1] leave the same context only when the two details are the
    same. *)
Theorem adds_commute_only_when_equal (d1 d2 : BookDetails) (ctx : Context) :
  State.exec (Session.run [Session.add d1; Session.add d2]) ctx =
  State.exec (Session.run [Session.add d2; Session.add d1]) ctx
  <-> d1 = d2.
Proof.
  split.
  - intros Heq. apply (f_equal Context.books) in Heq.
    rewrite !run_books in Heq. simpl in Heq.
    apply app_inv_head in Heq. congruence.
  - now intros ->.
Qed.

(** X4: a list sees every add that came before it: at the end of any
    session, a list replies with the starting collection followed by the
    books of the session's adds, in order. *)
Theorem list_after_session_sees_every_add
    (ops : list Session.Op) (ctx : Context) :
  State.eval (Session.run (ops ++ [Session.list])) ctx =
    State.eval (Session.run ops) ctx ++
      [Session.listed (Context.books ctx ++ Session.insertions ops)].
Proof.
  unfold State.eval at 1. rewrite run_app. cbn [fst]. f_equal.
  assert (Hlist : forall c : Context,
    State.eval (Session.run [Session.list]) c =
      [Session.listed (Context.books c)]) by reflexivity.
  now rewrite Hlist, run_books.
Qed.

(** * schema.ts *)

Section SchemaOptions.
Variable path_join : string -> string -> string.
Variable dirname : string.

(** X5: the schema build exits after generating its artifacts exactly when
    [GRAPHQL_CODEGEN] is set to a non-empty string.  Any non-empty value
    counts, ["false"] included; the empty string and an unset variable do
    not. *)
Theorem codegen_exits_iff_variable_is_nonempty (env : gmap string string) :
  let exits (e : gmap string string) :=
    Schema.shouldExitAfterGenerateArtifacts
      (Schema.graphqlSchema path_join dirname e) in
  (exits env = true <->
     exists value, env !! "GRAPHQL_CODEGEN" = Some value /\ value <> "") /\
  (forall value, value <> "" ->
     exits (<["GRAPHQL_CODEGEN" := value]> env) = true) /\
  exits (<["GRAPHQL_CODEGEN" := "false"]> env) = true /\
  exits (<["GRAPHQL_CODEGEN" := ""]> env) = false /\
  exits (delete "GRAPHQL_CODEGEN" env) = false.
Proof.
  cbv zeta. simpl. repeat split.
  - destruct (env !! "GRAPHQL_CODEGEN") as [value|] eqn:Hvar;
      [|discriminate].
    intros Hexit. exists value. split; [reflexivity|].
    intros ->. discriminate.
  - intros (value & -> & Hvalue). destruct value; [contradiction|reflexivity].
  - intros value Hvalue. rewrite lookup_insert_eq.
    destruct value; [contradiction|reflexivity].
  - now rewrite lookup_insert_eq.
  - now rewrite lookup_insert_eq.
  - now rewrite lookup_delete_eq.
Qed.

(** X6: no other environment variable plays a part: setting or unsetting
    a variable of another name leaves the options of the schema as they
    were. *)
Theorem other_variables_leave_the_options_alone
    (env : gmap string string) (name value : string)
    (Hname : name <> "GRAPHQL_CODEGEN") :
  Schema.graphqlSchema path_join dirname (<[name := value]> env) =
    Schema.graphqlSchema path_join dirname env /\
  Schema.graphqlSchema path_join dirname (delete name env) =
    Schema.graphqlSchema path_join dirname env.
Proof.
  unfold Schema.graphqlSchema.
  rewrite lookup_insert_ne by exact Hname.
  now rewrite lookup_delete_ne by exact Hname.
Qed.
End SchemaOptions.

Lemma other_variables_leave_the_options_alone_witness :
  Schema.graphqlSchema (fun a b => a +:+ "/" +:+ b) "/srv/graphql"
    (<["PATH" := "/usr/bin"]> (∅ : gmap string string)) =
  Schema.graphqlSchema (fun a b => a +:+ "/" +:+ b) "/srv/graphql" ∅.
Proof.
  apply (other_variables_leave_the_options_alone
           (fun a b => a +:+ "/" +:+ b) "/srv/graphql" ∅ "PATH" "/usr/bin").
  discriminate.
Defined.

(** * The documents *)

Lemma GetBooks_execute_run {F : Type} (selection : Book -> F) (ctx : Context) :
  GetBooks.execute selection ctx =
    ({| GetBooks.app :=
          {| GetBooks.books := map selection (Context.books ctx) |} |},
     ctx).
Proof. reflexivity. Qed.

Lemma is_Int_spec (n : Z) :
  AddBook.is_Int n = true <-> (-2147483648 <= n <= 2147483647)%Z.
Proof. unfold AddBook.is_Int. rewrite andb_true_iff, !Z.leb_le. tauto. Qed.

Lemma AddBook_execute_Int (variables : AddBook.Variables) (ctx : Context) :
  AddBook.is_Int (BookDetails.year (AddBook.input variables)) = true ->
  AddBook.execute variables ctx =
    ({| AddBook.data :=
          Some {| AddBook.addBook :=
                    Some {| GetBooks.title :=
                              BookDetails.title (AddBook.input variables) |} |};
        AddBook.errors := [] |},
     {| Context.books :=
          Context.books ctx ++ [Book.new (AddBook.input variables)];
        Context.app := Context.app ctx |}).
Proof. intros Hint. unfold AddBook.execute. now rewrite Hint. Qed.

Lemma AddBook_execute_not_Int (variables : AddBook.Variables) (ctx : Context) :
  AddBook.is_Int (BookDetails.year (AddBook.input variables)) = false ->
  AddBook.execute variables ctx =
    ({| AddBook.data := None;
        AddBook.errors := [AddBook.variable_error "input"] |}, ctx).
Proof. intros Hint. unfold AddBook.execute. now rewrite Hint. Qed.

(** X7: after the adds of [ds], GetBooks with the selection [{ title }]
    answers with one entry per book: the titles of the books that were
    there, followed by the titles of the added ones in the order of the
    adds.  The query leaves the context as it was. *)
Theorem GetBooks_answers_in_insertion_order
    (ds : list BookDetails) (ctx : Context) :
  let ctx' := State.exec (Session.run (map Session.add ds)) ctx in
  GetBooks.execute GetBooks.select_title ctx' =
    ({| GetBooks.app :=
          {| GetBooks.books :=
               map GetBooks.select_title (Context.books ctx) ++
               map (fun details =>
                      {| GetBooks.title := BookDetails.title details |}) ds
          |} |},
     ctx') /\
  map GetBooks.title
    (GetBooks.books
       (GetBooks.app
          (State.eval (GetBooks.execute GetBooks.select_title) ctx'))) =
    map Book.title (Context.books ctx) ++ map BookDetails.title ds.
Proof.
  cbv zeta. unfold State.eval. rewrite !GetBooks_execute_run.
  rewrite run_books, insertions_adds. simpl.
  rewrite !map_app, !map_map. simpl. split; reflexivity.
Qed.

(** X8: when the year of the input is a 32-bit integer, AddBook puts
    exactly one book in the store, built from the input and placed last,
    and answers with the title of the input and no error. *)
Theorem AddBook_stores_the_input_and_answers_its_title
    (variables : AddBook.Variables) (ctx : Context)
    (Hyear : (-2147483648 <=
                BookDetails.year (AddBook.input variables) <=
              2147483647)%Z) :
  let result := State.eval (AddBook.execute variables) ctx in
  let ctx' := State.exec (AddBook.execute variables) ctx in
  AddBook.errors result = [] /\
  AddBook.data result =
    Some {| AddBook.addBook :=
              Some {| GetBooks.title :=
                        BookDetails.title (AddBook.input variables) |} |} /\
  Context.books ctx' =
    Context.books ctx ++ [Book.new (AddBook.input variables)] /\
  State.eval (App.books (Context.app ctx')) ctx' =
    Context.books ctx ++ [Book.new (AddBook.input variables)].
Proof.
  apply is_Int_spec in Hyear. cbv zeta. unfold State.eval, State.exec.
  rewrite (AddBook_execute_Int _ _ Hyear). simpl. repeat split.
Qed.

Lemma AddBook_stores_the_input_and_answers_its_title_witness :
  AddBook.errors
    (State.eval
       (AddBook.execute
          {| AddBook.input := BookDetails.mk "New title" "Lachlan" 1990 |})
       context) = [].
Proof.
  apply (AddBook_stores_the_input_and_answers_its_title
           {| AddBook.input := BookDetails.mk "New title" "Lachlan" 1990 |}
           context).
  simpl. lia.
Defined.

(** * The server under a sequence of requests *)

Lemma handle_books (request : Server.Request) (ctx : Context) :
  Context.books (State.exec (Server.handle request) ctx) =
    Context.books ctx ++ Server.stored [request].
Proof.
  unfold State.exec. destruct request as [|variables]; cbn [Server.handle].
  - unfold State.bind. rewrite GetBooks_execute_run. simpl.
    symmetry. apply app_nil_r.
  - unfold State.bind. cbn [Server.stored].
    destruct (AddBook.is_Int _) eqn:Hint.
    + rewrite (AddBook_execute_Int _ _ Hint). reflexivity.
    + rewrite (AddBook_execute_not_Int _ _ Hint). simpl.
      symmetry. apply app_nil_r.
Qed.

Lemma serve_cons
    (request : Server.Request) (requests : list Server.Request) (ctx : Context) :
  Server.serve (request :: requests) ctx =
    (State.eval (Server.handle request) ctx ::
       State.eval (Server.serve requests)
         (State.exec (Server.handle request) ctx),
     State.exec (Server.serve requests)
       (State.exec (Server.handle request) ctx)).
Proof.
  unfold State.eval, State.exec. simpl. unfold State.bind at 1.
  destruct (Server.handle request ctx) as [response ctx1].
  unfold State.bind. simpl.
  now destruct (Server.serve requests ctx1).
Qed.

Lemma stored_app (requests1 requests2 : list Server.Request) :
  Server.stored (requests1 ++ requests2) =
    Server.stored requests1 ++ Server.stored requests2.
Proof.
  induction requests1 as [|[|variables] requests1 IH]; simpl.
  - reflexivity.
  - exact IH.
  - destruct (AddBook.is_Int _); simpl; congruence.
Qed.

Lemma serve_books (requests : list Server.Request) :
  forall ctx : Context,
    Context.books (State.exec (Server.serve requests) ctx) =
      Context.books ctx ++ Server.stored requests.
Proof.
  induction requests as [|request requests IH]; intros ctx.
  - simpl. symmetry. apply app_nil_r.
  - unfold State.exec at 1. rewrite serve_cons. cbn [snd].
    rewrite IH, handle_books, <- app_assoc.
    change (request :: requests) with ([request] ++ requests).
    now rewrite stored_app.
Qed.

Lemma serve_app (requests1 requests2 : list Server.Request) :
  forall ctx : Context,
    Server.serve (requests1 ++ requests2) ctx =
      (State.eval (Server.serve requests1) ctx ++
         State.eval (Server.serve requests2)
           (State.exec (Server.serve requests1) ctx),
       State.exec (Server.serve requests2)
         (State.exec (Server.serve requests1) ctx)).
Proof.
  induction requests1 as [|request requests1 IH]; intros ctx.
  - simpl. unfold State.eval, State.exec. simpl.
    now destruct (Server.serve requests2 ctx).
  - rewrite <- app_comm_cons, serve_cons.
    unfold State.eval at 2, State.exec at 2. rewrite IH.
    unfold State.eval, State.exec. rewrite serve_cons. reflexivity.
Qed.

(** X10: whatever requests the server has answered, its store holds the
    books it started with followed by one book for every AddBook whose
    year is a 32-bit integer, in the order of the requests.  On the
    server's own context the seeded book therefore stays first, and the
    store is never empty. *)
Theorem server_store_is_seed_then_accepted_adds
    (requests : list Server.Request) (ctx : Context) :
  Context.books (State.exec (Server.serve requests) ctx) =
    Context.books ctx ++ Server.stored requests /\
  Context.books (State.exec (Server.serve requests) context) !! 0%nat =
    Some (Book.new (BookDetails.mk "My book" "Lachlan" 1990)) /\
  Context.books (State.exec (Server.serve requests) context) <> [].
Proof.
  split; [apply serve_books|]. rewrite serve_books. simpl.
  split; [reflexivity|discriminate].
Qed.

(** X11: a GetBooks that follows an AddBook with a 32-bit year answers
    with the titles of the store before, then the title just added: the
    page that refetches after its mutation shows the new book last. *)
Theorem GetBooks_after_AddBook_ends_with_the_new_title
    (requests : list Server.Request)
    (variables : AddBook.Variables) (ctx : Context)
    (Hyear : (-2147483648 <=
                BookDetails.year (AddBook.input variables) <=
              2147483647)%Z) :
  last (State.eval
          (Server.serve
             (requests ++ [Server.AddBook variables; Server.GetBooks]))
          ctx) =
  Some (Server.GetBooksResult
          {| GetBooks.app :=
               {| GetBooks.books :=
                    map GetBooks.select_title
                      (Context.books ctx ++ Server.stored requests) ++
                    [ {| GetBooks.title :=
                           BookDetails.title (AddBook.input variables) |} ]
               |} |}).
Proof.
  apply is_Int_spec in Hyear.
  unfold State.eval at 1. rewrite serve_app. cbn [fst].
  set (ctx1 := State.exec (Server.serve requests) ctx).
  assert (Hbooks : Context.books ctx1 =
                   Context.books ctx ++ Server.stored requests)
    by apply serve_books.
  unfold State.eval at 2. rewrite serve_cons. cbn [fst].
  assert (Hget : forall c : Context,
    State.eval (Server.serve [Server.GetBooks]) c =
      [Server.GetBooksResult
         {| GetBooks.app :=
              {| GetBooks.books :=
                   map GetBooks.select_title (Context.books c) |} |}])
    by reflexivity.
  rewrite Hget, cons_middle, app_assoc, last_snoc. do 2 f_equal.
  rewrite handle_books, Hbooks. cbn [Server.stored]. rewrite Hyear.
  now rewrite map_app.
Qed.

Lemma GetBooks_after_AddBook_ends_with_the_new_title_witness :
  last (State.eval
          (Server.serve
             ([Server.GetBooks] ++
              [Server.AddBook
                 {| AddBook.input :=
                      BookDetails.mk "New title" "Lachlan" 1990 |};
               Server.GetBooks]))
          context) =
  Some (Server.GetBooksResult
          {| GetBooks.app :=
               {| GetBooks.books :=
                    [ {| GetBooks.title := "My book" |};
                      {| GetBooks.title := "New title" |} ] |} |}).
Proof.
  apply (GetBooks_after_AddBook_ends_with_the_new_title
           [Server.GetBooks]
           {| AddBook.input := BookDetails.mk "New title" "Lachlan" 1990 |}
           context).
  simpl. lia.
Defined.

(** * Query.vue *)

Lemma append_empty_r (s : string) : s +:+ "" = s.
Proof.
  induction s as [|c s IH]; [reflexivity|].
  change (String c (s +:+ "") = String c s). now rewrite IH.
Qed.

Lemma render_titles_is_render
    {CombinedError : Type} (toDisplayString : CombinedError -> string)
    (refs : QueryVue.Refs) :
  QueryVue.render_titles toDisplayString refs =
    QueryVue.render toDisplayString QueryVue.li refs.
Proof. reflexivity. Qed.

Lemma li_elements (books : list GetBooks.TitleOnly) :
  flat_map (elementsByTag "li") (map QueryVue.li books) =
    map QueryVue.li books.
Proof.
  induction books as [|book books IH]; [reflexivity|].
  simpl. now rewrite IH.
Qed.

Lemma li_textContent (books : list GetBooks.TitleOnly) :
  map textContent (map QueryVue.li books) = map GetBooks.title books.
Proof.
  induction books as [|book books IH]; [reflexivity|].
  simpl. now rewrite IH, append_empty_r.
Qed.

Lemma loaded_li_texts
    {CombinedError : Type} (toDisplayString : CombinedError -> string)
    (d : GetBooks.GetBooksQuery GetBooks.TitleOnly) :
  map textContent
    (elementsByTag "li"
       (QueryVue.render_titles toDisplayString
          {| QueryVue.fetching := false;
             QueryVue.data := Some d;
             QueryVue.error := None |})) =
  map GetBooks.title (GetBooks.books (GetBooks.app d)).
Proof.
  unfold QueryVue.render_titles.
  cbn [QueryVue.fetching QueryVue.error QueryVue.data].
  cbn [elementsByTag flat_map String.eqb Ascii.eqb Bool.eqb app].
  rewrite app_nil_r, li_elements. apply li_textContent.
Qed.

(** X12: the view that lists titles shows one [li] per book of the data,
    with the titles in the order of the data, when the query is neither
    fetching nor failed; while it is fetching, or once it has failed, it
    shows no [li] at all, whatever data it still holds. *)
Theorem view_lists_the_titles_only_once_loaded
    (CombinedError : Type) (toDisplayString : CombinedError -> string)
    (refs : QueryVue.Refs) :
  map textContent
    (elementsByTag "li" (QueryVue.render_titles toDisplayString refs)) =
  if QueryVue.fetching refs then []
  else
    match QueryVue.error refs, QueryVue.data refs with
    | None, Some d => map GetBooks.title (GetBooks.books (GetBooks.app d))
    | _, _ => []
    end.
Proof.
  unfold QueryVue.render_titles.
  destruct (QueryVue.fetching refs); [reflexivity|].
  destruct (QueryVue.error refs) as [e|]; [reflexivity|].
  destruct (QueryVue.data refs) as [d|]; [|reflexivity].
  cbn [elementsByTag flat_map String.eqb Ascii.eqb Bool.eqb app].
  rewrite app_nil_r, li_elements. apply li_textContent.
Qed.

(** X13: while the query is fetching, or once it has failed, the data
    plays no part in what Query.vue renders: the view is the one it would
    be without data, it holds no [ul], and fetching comes before the
    error, with the text " Loading... ". *)
Theorem view_ignores_the_data_unless_loaded
    (CombinedError F : Type)
    (toDisplayString : CombinedError -> string) (Book_vue : F -> VNode)
    (refs : QueryVue.Refs)
    (Hbusy : QueryVue.fetching refs = true \/ is_Some (QueryVue.error refs)) :
  QueryVue.render toDisplayString Book_vue refs =
    QueryVue.render toDisplayString Book_vue
      {| QueryVue.fetching := QueryVue.fetching refs;
         QueryVue.data := None;
         QueryVue.error := QueryVue.error refs |} /\
  elementsByTag "ul" (QueryVue.render toDisplayString Book_vue refs) = [] /\
  (QueryVue.fetching refs = true ->
   textContent (QueryVue.render toDisplayString Book_vue refs) =
     " Loading... ").
Proof.
  unfold QueryVue.render. simpl.
  destruct (QueryVue.fetching refs).
  - repeat split.
  - destruct Hbusy as [Hfetching|[e He]]; [discriminate|].
    rewrite He. repeat split. discriminate.
Qed.

Lemma view_ignores_the_data_unless_loaded_witness :
  elementsByTag "ul"
    (QueryVue.render (fun e : string => e) QueryVue.li
       {| QueryVue.fetching := false;
          QueryVue.data :=
            Some {| GetBooks.app :=
                      {| GetBooks.books :=
                           [ {| GetBooks.title := "My book" |} ] |} |};
          QueryVue.error := Some "[Network] Failed to fetch" |}) = [].
Proof.
  apply (view_ignores_the_data_unless_loaded string GetBooks.TitleOnly
           (fun e : string => e) QueryVue.li).
  right. simpl. eexists. reflexivity.
Defined.

(** * Mutation.vue *)

(** X14: what the form sends.  The title and the author go as typed; the
    year goes as typed unless it is absent or [0], in which case 1990 goes
    instead: the form never sends the year [0]. *)
Theorem form_sends_what_was_typed_but_never_year_zero
    (refs : MutationVue.Refs) :
  let input := AddBook.input (MutationVue.variables refs) in
  BookDetails.title input = MutationVue.title refs /\
  BookDetails.author input = MutationVue.author refs /\
  BookDetails.year input <> 0%Z /\
  (forall n : Z, MutationVue.year refs = Some n -> n <> 0%Z ->
     BookDetails.year input = n) /\
  (MutationVue.year refs = None \/ MutationVue.year refs = Some 0%Z ->
     BookDetails.year input = 1990%Z).
Proof.
  cbv zeta. simpl. split; [reflexivity|]. split; [reflexivity|].
  destruct (MutationVue.year refs) as [[|p|p]|]; simpl.
  - split; [discriminate|]. split; [intros n [= <-] Hn; contradiction|auto].
  - split; [discriminate|]. split; [now intros n [= <-]|].
    intros [H|H]; discriminate.
  - split; [discriminate|]. split; [now intros n [= <-]|].
    intros [H|H]; discriminate.
  - split; [discriminate|]. split; [discriminate|auto].
Qed.

Section AddHandler.
Context {World Result : Type}.
Variable executeMutation :
  AddBook.Variables -> State.M World (Promise Result).

Lemma add_fulfilled
    (refs : MutationVue.Refs) (world world' : World) (result : Result) :
  executeMutation (MutationVue.variables refs) world =
    (Fulfilled result, world') ->
  MutationVue.add executeMutation (refs, world) =
    (Fulfilled tt, (MutationVue.setup, world')).
Proof. intros Hcall. unfold MutationVue.add. now rewrite Hcall. Qed.

Lemma add_rejected
    (refs : MutationVue.Refs) (world world' : World) (reason : string) :
  executeMutation (MutationVue.variables refs) world =
    (Rejected reason, world') ->
  MutationVue.add executeMutation (refs, world) =
    (Rejected reason, (refs, world')).
Proof. intros Hcall. unfold MutationVue.add. now rewrite Hcall. Qed.

(** X15: [add] calls [executeMutation] once, with the variables of the
    form.  When the promise of that call is fulfilled, whatever its
    result, the three refs are left as [setup] made them, so an [add] that
    follows sends the empty title, the empty author and the year 1990 and
    leaves the refs so again.  When the promise is rejected, [add] is
    rejected with the same reason and the refs keep what was typed. *)
Theorem add_clears_the_form_so_the_next_add_sends_an_empty_book
    (refs : MutationVue.Refs) (world : World) :
  let '(outcome, world') :=
    executeMutation (MutationVue.variables refs) world in
  match outcome with
  | Fulfilled _ =>
      MutationVue.add executeMutation (refs, world) =
        (Fulfilled tt, (MutationVue.setup, world')) /\
      State.exec
        (let* _ := MutationVue.add executeMutation in
         MutationVue.add executeMutation)
        (refs, world) =
        (MutationVue.setup,
         State.exec
           (executeMutation
              {| AddBook.input := BookDetails.mk "" "" 1990 |})
           world')
  | Rejected reason =>
      MutationVue.add executeMutation (refs, world) =
        (Rejected reason, (refs, world'))
  end.
Proof.
  destruct (executeMutation (MutationVue.variables refs) world)
    as [[result|reason] world'] eqn:Hcall.
  - split; [exact (add_fulfilled _ _ _ _ Hcall)|].
    unfold State.exec at 1, State.bind.
    rewrite (add_fulfilled _ _ _ _ Hcall).
    change (MutationVue.variables MutationVue.setup)
      with {| AddBook.input := BookDetails.mk "" "" 1990 |}.
    unfold State.exec.
    destruct (executeMutation
                {| AddBook.input := BookDetails.mk "" "" 1990 |} world')
      as [[result2|reason2] world''] eqn:Hcall2.
    + now rewrite (add_fulfilled MutationVue.setup _ _ _ Hcall2).
    + now rewrite (add_rejected MutationVue.setup _ _ _ Hcall2).
  - exact (add_rejected _ _ _ _ Hcall).
Qed.
End AddHandler.

(** * The form, the server and the list *)

Lemma Page_executeMutation_run
    (variables : AddBook.Variables) (ctx : Context) :
  Page.executeMutation variables ctx =
    (Fulfilled (State.eval (AddBook.execute variables) ctx),
     State.exec (AddBook.execute variables) ctx).
Proof.
  unfold Page.executeMutation, async, State.bind, State.eval, State.exec.
  now destruct (AddBook.execute variables ctx).
Qed.

Lemma Page_add_run (refs : MutationVue.Refs) (ctx : Context) :
  MutationVue.add Page.executeMutation (refs, ctx) =
    (Fulfilled tt,
     (MutationVue.setup,
      State.exec (AddBook.execute (MutationVue.variables refs)) ctx)).
Proof.
  apply (add_fulfilled Page.executeMutation refs ctx _
           (State.eval (AddBook.execute (MutationVue.variables refs)) ctx)).
  apply Page_executeMutation_run.
Qed.

(** X16: the form against the server.  When the year typed is a 32-bit
    integer (or none), [add] stores one book with the title and the author
    of the form and clears the form; the list that refetches then shows
    the titles it showed before, followed by the title that was typed. *)
Theorem page_shows_the_typed_title_last
    (CombinedError : Type) (toDisplayString : CombinedError -> string)
    (refs : MutationVue.Refs) (ctx : Context)
    (Hyear : forall n : Z, MutationVue.year refs = Some n ->
               (-2147483648 <= n <= 2147483647)%Z) :
  let after := State.exec (MutationVue.add Page.executeMutation) (refs, ctx) in
  let data := State.eval (GetBooks.execute GetBooks.select_title) after.2 in
  after.1 = MutationVue.setup /\
  Context.books after.2 =
    Context.books ctx ++
      [Book.new (AddBook.input (MutationVue.variables refs))] /\
  map textContent
    (elementsByTag "li"
       (QueryVue.render_titles toDisplayString
          {| QueryVue.fetching := false;
             QueryVue.data := Some data;
             QueryVue.error := None |})) =
    map Book.title (Context.books ctx) ++ [MutationVue.title refs].
Proof.
  assert (Hint :
    AddBook.is_Int
      (BookDetails.year (AddBook.input (MutationVue.variables refs))) = true).
  { apply is_Int_spec. simpl.
    destruct (MutationVue.year refs) as [n|] eqn:Hn; simpl; [|lia].
    specialize (Hyear n eq_refl). destruct n; simpl; lia. }
  cbv zeta. unfold State.exec at 1 2 3.
  rewrite Page_add_run. cbn [fst snd]. unfold State.exec.
  rewrite (AddBook_execute_Int _ _ Hint). cbn [fst snd Context.books].
  split; [reflexivity|]. split; [reflexivity|].
  rewrite loaded_li_texts.
  unfold State.eval. rewrite GetBooks_execute_run. simpl.
  rewrite map_map, map_app. simpl. reflexivity.
Qed.

Lemma page_shows_the_typed_title_last_witness :
  Context.books
    (State.exec (MutationVue.add Page.executeMutation)
       ({| MutationVue.title := "New title";
           MutationVue.author := "Lachlan";
           MutationVue.year := None |}, context)).2 =
  Context.books context ++
    [Book.new (BookDetails.mk "New title" "Lachlan" 1990)].
Proof.
  apply (proj1 (proj2
    (page_shows_the_typed_title_last string (fun e : string => e)
       {| MutationVue.title := "New title";
          MutationVue.author := "Lachlan";
          MutationVue.year := None |}
       context
       (fun n H => ltac:(discriminate H))))).
Defined.

(** X17: when the year typed is not a 32-bit integer the server refuses
    the mutation and its store keeps the books it had, but [add] clears
    the form all the same: what was typed is gone and no book was added. *)
Theorem page_clears_the_form_even_when_the_year_is_refused
    (refs : MutationVue.Refs) (ctx : Context) (n : Z)
    (Hn : MutationVue.year refs = Some n)
    (Hbig : (n < -2147483648 \/ 2147483647 < n)%Z) :
  State.exec (MutationVue.add Page.executeMutation) (refs, ctx) =
    (MutationVue.setup, ctx).
Proof.
  unfold State.exec at 1. rewrite Page_add_run. cbn [snd]. f_equal.
  unfold State.exec. rewrite AddBook_execute_not_Int; [reflexivity|].
  apply not_true_is_false. rewrite is_Int_spec. simpl. rewrite Hn.
  destruct n; simpl; lia.
Qed.

Lemma page_clears_the_form_even_when_the_year_is_refused_witness :
  State.exec (MutationVue.add Page.executeMutation)
    ({| MutationVue.title := "Far";
        MutationVue.author := "Lachlan";
        MutationVue.year := Some 2147483648%Z |}, context) =
    (MutationVue.setup, context).
Proof.
  apply (page_clears_the_form_even_when_the_year_is_refused
           {| MutationVue.title := "Far";
              MutationVue.author := "Lachlan";
              MutationVue.year := Some 2147483648%Z |}
           context 2147483648).
  - reflexivity.
  - right. lia.
Defined.
